(** * usa_stock: the Streamlit page of src/app.py

    The program is one top-level Streamlit script.  A run of the script reads
    the wall clock ([date.today()]), reads the state of the widgets it
    declares, and emits page elements into the sidebar, the main area and five
    tab containers.  The embedding keeps that shape: a run is a computation in
    a small monad that reads a [World] (clock and widget state), appends to a
    log of emitted elements and may raise a Python exception. *)

From Stdlib Require Import ZArith List String Ascii Bool Lia QArith.
From Stdlib Require Import DecimalString.
Import ListNotations.

Local Open Scope string_scope.
Local Open Scope Z_scope.

(** ** Python values used by the script *)

Module Py.

(** Exceptions the script can raise. *)
Inductive Exc : Type :=
| KeyError (key : option string)
| OverflowError
| ValueError.

Inductive Res (A : Type) : Type :=
| Ok (a : A)
| Raise (e : Exc).
Arguments Ok {A} a.
Arguments Raise {A} e.

Definition res_bind {A B : Type} (r : Res A) (k : A -> Res B) : Res B :=
  match r with
  | Ok a => k a
  | Raise e => Raise e
  end.

(** [str(n)] for an int. *)
Definition str_int (n : Z) : string :=
  NilZero.string_of_int (Z.to_int n).

(** [f"{v}"] for a value that is a str or None. *)
Definition str_opt (v : option string) : string :=
  match v with
  | Some s => s
  | None => "None"
  end.

(** [str.upper] on ASCII text: a-z become A-Z, every other byte stays.  It
    stands for [str.upper] where the script is run on concrete ASCII input. *)
Definition ascii_upper_char (c : ascii) : ascii :=
  let n := nat_of_ascii c in
  if ((97 <=? n) && (n <=? 122))%nat then ascii_of_nat (n - 32) else c.

Fixpoint ascii_upper (s : string) : string :=
  match s with
  | EmptyString => EmptyString
  | String c s' => String (ascii_upper_char c) (ascii_upper s')
  end.

(** [range(n)]. *)
Definition range (n : nat) : list Z := map Z.of_nat (seq 0 n).

(** A dict literal with str keys, in insertion order. *)
Definition dict (V : Type) : Type := list (string * V).

Fixpoint dict_get {V : Type} (d : dict V) (k : string) : option V :=
  match d with
  | [] => None
  | (k', v) :: d' => if String.eqb k k' then Some v else dict_get d' k
  end.

(** [d[k]] where [k] is a str or None: KeyError on a missing key. *)
Definition getitem {V : Type} (d : dict V) (k : option string) : Res V :=
  match k with
  | Some k' =>
      match dict_get d k' with
      | Some v => Ok v
      | None => Raise (KeyError k)
      end
  | None => Raise (KeyError None)
  end.

(** [list(d.keys())]. *)
Definition keys {V : Type} (d : dict V) : list string := map fst d.

Definition values {V : Type} (d : dict V) : list V := map snd d.

End Py.

(** ** datetime.date and pandas timestamps

    A [date] is the number of days since 1970-01-01 in the proleptic Gregorian
    calendar; a pandas timestamp is the number of nanoseconds since the same
    instant (datetime64[ns]). *)

Module Date.

Definition date : Type := Z.

(** Days since 1970-01-01 of the civil date y-m-d. *)
Definition days_from_civil (y m d : Z) : Z :=
  let y' := if m <=? 2 then y - 1 else y in
  let era := y' / 400 in
  let yoe := y' - era * 400 in
  let mp := if m <=? 2 then m + 9 else m - 3 in
  let doy := (153 * mp + 2) / 5 + d - 1 in
  let doe := yoe * 365 + yoe / 4 - yoe / 100 + doy in
  era * 146097 + doe - 719468.

(** The civil date (year, month, day) of a day number. *)
Definition civil_from_days (z : Z) : Z * Z * Z :=
  let z' := z + 719468 in
  let era := z' / 146097 in
  let doe := z' - era * 146097 in
  let yoe := (doe - doe / 1460 + doe / 36524 - doe / 146096) / 365 in
  let doy := doe - (365 * yoe + yoe / 4 - yoe / 100) in
  let mp := (5 * doy + 2) / 153 in
  let d := doy - (153 * mp + 2) / 5 + 1 in
  let m := if mp <? 10 then mp + 3 else mp - 9 in
  let y := yoe + era * 400 in
  (if m <=? 2 then y + 1 else y, m, d).

(** Leap years and month lengths of the proleptic Gregorian calendar. *)
Definition is_leap (y : Z) : bool :=
  ((y mod 4 =? 0) && negb (y mod 100 =? 0) || (y mod 400 =? 0))%bool.

Definition days_in_month (y m : Z) : Z :=
  if m =? 2 then (if is_leap y then 29 else 28)
  else if (m =? 4) || (m =? 6) || (m =? 9) || (m =? 11) then 30 else 31.

(** [date.min] is 0001-01-01 and [date.max] is 9999-12-31. *)
Definition date_min : date := Eval cbv in days_from_civil 1 1 1.
Definition date_max : date := Eval cbv in days_from_civil 9999 12 31.

Definition in_range (d : date) : bool := (date_min <=? d) && (d <=? date_max).

(** [d - timedelta(days=n)]: OverflowError when the result leaves
    [date.min, date.max]. *)
Definition sub_days (d : date) (n : Z) : Py.Res date :=
  if in_range (d - n) then Py.Ok (d - n) else Py.Raise Py.OverflowError.

(** Decimal digits of a natural number, left-padded with zeros to [width]. *)
Fixpoint zeros (n : nat) : string :=
  match n with
  | O => ""
  | S n' => String "0" (zeros n')
  end.

Definition pad (width : nat) (n : Z) : string :=
  let s := Py.str_int n in
  zeros (width - String.length s) ++ s.

(** [str(d)], the ISO form YYYY-MM-DD. *)
Definition isoformat (d : date) : string :=
  let '(y, m, dd) := civil_from_days d in
  pad 4 y ++ "-" ++ pad 2 m ++ "-" ++ pad 2 dd.

Definition ns_per_day : Z := 86400 * 1000000000.

(** [pd.date_range(start=..., periods=n, freq='D')] as nanosecond timestamps. *)
Definition date_range (start : date) (periods : nat) : list Z :=
  map (fun i => start * ns_per_day + i * ns_per_day) (Py.range periods).

(** [pd.to_datetime] of a DatetimeIndex is that index. *)
Definition to_datetime (idx : list Z) : list Z := idx.

End Date.

(** ** plotly.graph_objects *)

Module Go.

Record Candlestick : Type := mkCandlestick {
  x : list Z;
  open : list Z;
  high : list Z;
  low : list Z;
  close : list Z;
  name : string
}.

Record Layout : Type := mkLayout {
  title : option string;
  xaxis_rangeslider_visible : option bool;
  height : option Z
}.

Record Figure : Type := mkFigure {
  data : list Candlestick;
  layout : Layout
}.

(** [go.Figure(data=traces)]: the layout starts empty. *)
Definition figure (traces : list Candlestick) : Figure :=
  mkFigure traces (mkLayout None None None).

(** [fig.update_layout(title=t, xaxis_rangeslider_visible=v, height=h)]. *)
Definition update_layout (fig : Figure) (t : string) (v : bool) (h : Z) : Figure :=
  mkFigure (data fig) (mkLayout (Some t) (Some v) (Some h)).

End Go.

(** ** pandas *)

Module Pd.

(** A DataFrame built from a dict of equally typed columns. *)
Definition DataFrame (V : Type) : Type := Py.dict (list V).

Definition mkDataFrame {V : Type} (d : Py.dict (list V)) : DataFrame V := d.

(** The cell of column [val_col] in the first row whose [key_col] cell is [key]. *)
Fixpoint find_row (keys vals : list string) (key : string) : option string :=
  match keys, vals with
  | k :: keys', v :: vals' => if String.eqb k key then Some v else find_row keys' vals' key
  | _, _ => None
  end.

Definition cell (df : DataFrame string) (key_col key val_col : string) : option string :=
  match Py.dict_get df key_col, Py.dict_get df val_col with
  | Some ks, Some vs => find_row ks vs key
  | _, _ => None
  end.

(** [df[col]]. *)
Definition col {V : Type} (df : DataFrame V) (c : string) : Py.Res (list V) :=
  Py.getitem df (Some c).

End Pd.

(** ** streamlit

    Elements are logged in the order the script emits them, each with the
    container it went to.  A widget reads its value from the session (the
    value the user left it at, or its default when untouched), logs itself
    with that value and returns it. *)

Module St.

Inductive Container : Type :=
| Page
| Sidebar
| Main
| Tab (n : nat).

Inductive Elem : Type :=
| PageConfig (page_title layout initial_sidebar_state : string)
| Title (body : string)
| Header (body : string)
| Subheader (body : string)
| Markdown (body : string)
| Caption (body : string)
| Info (body : string)
| Warning (body : string)
| Success (body : string)
| TextInput (label value : string)
| DateInput (label : string) (value : Date.date)
| Selectbox (label : string) (options : list string) (index : nat)
| Slider (label : string) (min_value max_value value : Z)
| Button (label : string)
| Tabs (labels : list string)
| PlotlyChart (fig : Go.Figure)
| Dataframe (df : Pd.DataFrame string).

Definition Log : Type := list (Container * Elem).

(** Widget state of the browser session, by widget label; [None] is an
    untouched widget. *)
Record Session : Type := mkSession {
  text_state : string -> option string;
  date_state : string -> option Date.date;
  select_state : string -> option nat;
  slider_state : string -> option Z;
  button_state : string -> bool
}.

Record World : Type := mkWorld {
  today : Date.date;
  session : Session
}.

(** A script: reads the world, writes to the current container, may raise.
    The log keeps what was emitted before an exception. *)
Definition M (A : Type) : Type := World -> Container -> Log -> Py.Res A * Log.

Definition ret {A : Type} (a : A) : M A := fun _ _ log => (Py.Ok a, log).

Definition bind {A B : Type} (m : M A) (k : A -> M B) : M B :=
  fun w c log =>
    match m w c log with
    | (Py.Ok a, log') => k a w c log'
    | (Py.Raise e, log') => (Py.Raise e, log')
    end.

Definition push (log : Log) (c : Container) (e : Elem) : Log :=
  (log ++ [(c, e)])%list.

Definition lift {A : Type} (r : Py.Res A) : M A := fun _ _ log => (r, log).

Definition emit (e : Elem) : M unit := fun _ c log => (Py.Ok tt, push log c e).

(** [st.sidebar.f(...)] and [with container: ...]. *)
Definition within {A : Type} (c : Container) (m : M A) : M A :=
  fun w _ log => m w c log.

Definition sidebar {A : Type} (m : M A) : M A := within Sidebar m.

(** [date.today()]. *)
Definition date_today : M Date.date := fun w _ log => (Py.Ok (today w), log).

Definition set_page_config (page_title layout initial_sidebar_state : string) : M unit :=
  within Page (emit (PageConfig page_title layout initial_sidebar_state)).

Definition title (body : string) : M unit := emit (Title body).
Definition header (body : string) : M unit := emit (Header body).
Definition subheader (body : string) : M unit := emit (Subheader body).
Definition markdown (body : string) : M unit := emit (Markdown body).
Definition caption (body : string) : M unit := emit (Caption body).
Definition info (body : string) : M unit := emit (Info body).
Definition warning (body : string) : M unit := emit (Warning body).
Definition success (body : string) : M unit := emit (Success body).
Definition plotly_chart (fig : Go.Figure) : M unit := emit (PlotlyChart fig).
Definition dataframe (df : Pd.DataFrame string) : M unit := emit (Dataframe df).

Definition state_or {A : Type} (st : option A) (default : A) : A :=
  match st with
  | Some v => v
  | None => default
  end.

Definition text_input (label value : string) : M string :=
  fun w c log =>
    let v := state_or (text_state (session w) label) value in
    (Py.Ok v, push log c (TextInput label v)).

Definition date_input (label : string) (value : Date.date) : M Date.date :=
  fun w c log =>
    let v := state_or (date_state (session w) label) value in
    (Py.Ok v, push log c (DateInput label v)).

(** [st.selectbox(label, options)]: the option at the chosen index (index 0
    when untouched), None when there is no such option. *)
Definition selectbox (label : string) (options : list string) : M (option string) :=
  fun w c log =>
    let i := state_or (select_state (session w) label) 0%nat in
    (Py.Ok (nth_error options i), push log c (Selectbox label options i)).

Definition slider (label : string) (min_value max_value value : Z) : M Z :=
  fun w c log =>
    let v := state_or (slider_state (session w) label) value in
    (Py.Ok v, push log c (Slider label min_value max_value v)).

Definition button (label : string) : M bool :=
  fun w c log =>
    (Py.Ok (button_state (session w) label), push log c (Button label)).

(** [st.tabs(labels)]: one container per label. *)
Definition tabs (labels : list string) : M (list Container) :=
  fun w c log =>
    (Py.Ok (map Tab (seq 0 (List.length labels))), push log c (Tabs labels)).

(** [a, b, c, d, e = xs]: ValueError unless [xs] has five items. *)
Definition unpack5 {A : Type} (xs : list A) : Py.Res (A * A * A * A * A) :=
  match xs with
  | [a; b; c; d; e] => Py.Ok (a, b, c, d, e)
  | _ => Py.Raise Py.ValueError
  end.

(** The values a widget lets the user select: a slider holds an integer of
    its range, a selectbox the index of one of its options. *)
Definition selectable (e : Elem) : bool :=
  match e with
  | Slider _ lo hi v => (lo <=? v) && (v <=? hi)
  | Selectbox _ options i => (i <? List.length options)%nat
  | _ => true
  end.

(** The input widgets among some elements, by kind and label, and the
    tables among them. *)
Inductive Kind : Type :=
| KTextInput
| KDateInput
| KSelectbox
| KSlider
| KButton.

Definition widget (e : Elem) : option (Kind * string) :=
  match e with
  | TextInput label _ => Some (KTextInput, label)
  | DateInput label _ => Some (KDateInput, label)
  | Selectbox label _ _ => Some (KSelectbox, label)
  | Slider label _ _ _ => Some (KSlider, label)
  | Button label => Some (KButton, label)
  | _ => None
  end.

Fixpoint widgets (es : list Elem) : list (Kind * string) :=
  match es with
  | [] => []
  | e :: es' =>
      match widget e with
      | Some kl => kl :: widgets es'
      | None => widgets es'
      end
  end.

Fixpoint dataframes (es : list Elem) : list (Pd.DataFrame string) :=
  match es with
  | [] => []
  | Dataframe df :: es' => df :: dataframes es'
  | _ :: es' => dataframes es'
  end.

Definition all_selectable (log : Log) : bool :=
  forallb (fun ce => selectable (snd ce)) log.

(** The success messages among some elements. *)
Fixpoint successes (es : list Elem) : list string :=
  match es with
  | [] => []
  | Success body :: es' => body :: successes es'
  | _ :: es' => successes es'
  end.

(** Two sessions agree on a widget when they hold the same state for it. *)
Definition agree (s s' : Session) (e : Elem) : Prop :=
  match e with
  | TextInput label _ => text_state s label = text_state s' label
  | DateInput label _ => date_state s label = date_state s' label
  | Selectbox label _ _ => select_state s label = select_state s' label
  | Slider label _ _ _ => slider_state s label = slider_state s' label
  | Button label => button_state s label = button_state s' label
  | _ => True
  end.

(** Position of the first button in a log. *)
Fixpoint button_index (log : Log) : nat :=
  match log with
  | [] => 0
  | (_, Button _) :: _ => 0
  | _ :: log' => S (button_index log')
  end.

(** Sessions for concrete runs: every widget untouched, and one gesture
    at a time on top of a session. *)
Definition untouched : Session :=
  mkSession (fun _ => None) (fun _ => None) (fun _ => None) (fun _ => None)
            (fun _ => false).

Definition upd {A : Type} (f : string -> A) (label : string) (v : A) : string -> A :=
  fun l => if String.eqb l label then v else f l.

Definition type_text (label v : string) (s : Session) : Session :=
  mkSession (upd (text_state s) label (Some v)) (date_state s) (select_state s)
            (slider_state s) (button_state s).

Definition pick_date (label : string) (v : Date.date) (s : Session) : Session :=
  mkSession (text_state s) (upd (date_state s) label (Some v)) (select_state s)
            (slider_state s) (button_state s).

Definition choose (label : string) (i : nat) (s : Session) : Session :=
  mkSession (text_state s) (date_state s) (upd (select_state s) label (Some i))
            (slider_state s) (button_state s).

Definition slide (label : string) (v : Z) (s : Session) : Session :=
  mkSession (text_state s) (date_state s) (select_state s)
            (upd (slider_state s) label (Some v)) (button_state s).

Definition click (label : string) (b : bool) (s : Session) : Session :=
  mkSession (text_state s) (date_state s) (select_state s) (slider_state s)
            (upd (button_state s) label b).

Definition run {A : Type} (m : M A) (w : World) : Py.Res A * Log := m w Main [].

Definition same_container (c c' : Container) : bool :=
  match c, c' with
  | Page, Page => true
  | Sidebar, Sidebar => true
  | Main, Main => true
  | Tab n, Tab n' => Nat.eqb n n'
  | _, _ => false
  end.

(** The elements of one container, in the order they were emitted. *)
Definition elements (c : Container) (log : Log) : list Elem :=
  map snd (filter (fun ce => same_container (fst ce) c) log).

End St.

Declare Scope st_scope.
Delimit Scope st_scope with st.
Notation "x <- m ;; k" := (St.bind m (fun x => k))
  (at level 61, m at next level, right associativity) : st_scope.
Notation "m ;; k" := (St.bind m (fun _ => k))
  (at level 61, right associativity) : st_scope.

(** ** src/app.py *)

Module App.

Import Py.
Local Open Scope st_scope.

(** The candlestick data of [get_dummy_candlestick_chart]: the [data] dict.
    The start of the date range, '2025-01-01', is given as its civil date. *)
Definition data : Py.dict (list Z) :=
  [ ("Date", Date.to_datetime (Date.date_range (Date.days_from_civil 2025 1 1) 100));
    ("Open", map (fun i => 100 + i mod 10) (range 100));
    ("High", map (fun i => 105 + i mod 10) (range 100));
    ("Low", map (fun i => 95 + i mod 10) (range 100));
    ("Close", map (fun i => 102 + i mod 10) (range 100)) ].

Definition get_dummy_candlestick_chart (ticker : string) : Res Go.Figure :=
  let df := Pd.mkDataFrame data in
  res_bind (Pd.col df "Date") (fun x =>
  res_bind (Pd.col df "Open") (fun open =>
  res_bind (Pd.col df "High") (fun high =>
  res_bind (Pd.col df "Low") (fun low =>
  res_bind (Pd.col df "Close") (fun close =>
  let fig := Go.figure [Go.mkCandlestick x open high low close "Candlestick"] in
  let fig := Go.update_layout fig (ticker ++ " 股價走勢 (模擬數據)") false 500 in
  Ok fig))))).

Definition strategy_options : Py.dict string :=
  [ ("均線交叉策略", "GoldenCross");
    ("突破策略", "Breakout");
    ("多因子綜合策略", "MultiFactor") ].

(** The parameter variables the if/elif chain binds: each branch binds its
    own, and no branch binds any when the key is none of the three. *)
Inductive Params : Type :=
| GoldenCross (fast_ma slow_ma : Z)
| Breakout (period : Z)
| MultiFactor (rsi_buy rsi_sell : Z)
| Unbound.

(** The script's variables after a run. *)
Record Globals : Type := mkGlobals {
  ticker : string;
  start_date : Date.date;
  end_date : Date.date;
  selected_strategy_name : option string;
  selected_strategy_key : string;
  params : Params
}.

(** The metrics table of the backtest tab. *)
Definition metrics : Pd.DataFrame string :=
  Pd.mkDataFrame
    [ ("指標", ["年化報酬率"; "最大回撤"; "夏普比率"]);
      ("數值", ["25.5%"; "-15.2%"; "1.5"]) ].

Section Script.

(** [str.upper], Python's Unicode upper-casing of a string. *)
Variable upper : string -> string.

(** Lines 77-89: the parameter sliders of the selected strategy. *)
Definition parameter_sliders (selected_strategy_key : string) : St.M Params :=
  if (selected_strategy_key =? "GoldenCross")%string then
    fast_ma <- St.sidebar (St.slider "短期均線 (Fast MA)" 5 60 20);;
    slow_ma <- St.sidebar (St.slider "長期均線 (Slow MA)" 50 300 60);;
    St.sidebar (St.info ("策略參數: 短期 " ++ str_int fast_ma ++ " 日, 長期 "
                         ++ str_int slow_ma ++ " 日"));;
    St.ret (GoldenCross fast_ma slow_ma)
  else if (selected_strategy_key =? "Breakout")%string then
    period <- St.sidebar (St.slider "突破週期 (Period)" 5 100 20);;
    St.sidebar (St.info ("策略參數: " ++ str_int period ++ " 日突破"));;
    St.ret (Breakout period)
  else if (selected_strategy_key =? "MultiFactor")%string then
    rsi_buy <- St.sidebar (St.slider "RSI 買入閾值" 10 40 30);;
    rsi_sell <- St.sidebar (St.slider "RSI 賣出閾值" 60 90 70);;
    St.sidebar (St.info ("策略參數: RSI 買入 < " ++ str_int rsi_buy ++ ", 賣出 > "
                         ++ str_int rsi_sell));;
    St.ret (MultiFactor rsi_buy rsi_sell)
  else
    St.ret Unbound.

(** Lines 92-95: the run button and its handler. *)
Definition run_backtest_button : St.M unit :=
  St.sidebar (St.markdown "---");;
  pressed <- St.sidebar (St.button "🚀 執行策略回測");;
  if pressed : bool then St.sidebar (St.success "回測請求已送出...") else St.ret tt.

(** Lines 44-95: the sidebar. *)
Definition sidebar_controls : St.M Globals :=
  today <- St.date_today;;
  default_start_date <- St.lift (Date.sub_days today (10 * 365));;
  St.sidebar (St.title "📈 股市分析儀");;
  text <- St.sidebar (St.text_input "請輸入美股代碼" "AAPL");;
  let ticker := upper text in
  St.sidebar (St.subheader "📅 分析日期範圍");;
  start_date <- St.sidebar (St.date_input "起始日期" default_start_date);;
  end_date <- St.sidebar (St.date_input "結束日期" today);;
  St.sidebar (St.subheader "⚙️ 策略回測設定");;
  selected_strategy_name <-
    St.sidebar (St.selectbox "選擇回測策略" (keys strategy_options));;
  selected_strategy_key <- St.lift (getitem strategy_options selected_strategy_name);;
  St.sidebar (St.markdown "---");;
  St.sidebar (St.subheader "參數調整");;
  params <- parameter_sliders selected_strategy_key;;
  run_backtest_button;;
  St.ret (mkGlobals ticker start_date end_date selected_strategy_name
                    selected_strategy_key params).

(** Lines 97-146: the main area and its five tabs. *)
Definition main_content (g : Globals) : St.M unit :=
  St.title ("美股綜合分析系統 - " ++ ticker g);;
  St.markdown ("分析期間: **" ++ Date.isoformat (start_date g) ++ "** 至 **"
               ++ Date.isoformat (end_date g) ++ "**");;
  containers <- St.tabs [ "總覽 (Overview)";
                          "基本面 (Fundamental)";
                          "技術面 (Technical)";
                          "心理面 (Sentiment)";
                          "策略回測 (Backtest)" ];;
  five <- St.lift (St.unpack5 containers);;
  let '(tab1, tab2, tab3, tab4, tab5) := five in
  St.within tab1 (
    St.header "總覽";;
    St.info ("正在顯示 " ++ ticker g ++ " 的公司基本資訊與股價摘要...");;
    St.subheader "股價走勢";;
    fig <- St.lift (get_dummy_candlestick_chart (ticker g));;
    St.plotly_chart fig);;
  St.within tab2 (
    St.header "基本面分析";;
    St.warning "此處將顯示財務報表趨勢圖與財務比率表格。");;
  St.within tab3 (
    St.header "技術面分析";;
    St.warning "此處將顯示可疊加技術指標的互動式 K 線圖。");;
  St.within tab4 (
    St.header "心理面分析";;
    St.warning "此處將顯示 VIX 恐慌指數圖與新聞情緒分析結果。");;
  St.within tab5 (
    St.header "策略回測結果";;
    St.warning ("當前選擇策略: **" ++ str_opt (selected_strategy_name g)
                ++ "**。回測結果將在此處呈現。");;
    St.subheader "績效指標 (Performance Metrics)";;
    St.dataframe metrics;;
    St.subheader "權益曲線圖 (Equity Curve)");;
  St.markdown "---";;
  St.caption "本應用程式為美股分析系統的 Streamlit 介面設計範例。".

(** The whole script. *)
Definition app : St.M Globals :=
  St.set_page_config "美股綜合分析系統 (Streamlit UI 範例)" "wide" "expanded";;
  g <- sidebar_controls;;
  main_content g;;
  St.ret g.

End Script.

(** The status message of the button handler is in the sidebar. *)
Definition request_submitted (log : St.Log) : Prop :=
  In (St.Sidebar, St.Success "回測請求已送出...") log.

End App.

(** ** Reading a displayed percentage

    The metrics table holds display strings.  [percent_value] gives the number
    such a string denotes: an optional minus sign, decimal digits with an
    optional fraction, and a final percent sign, so that "-15.2%" is
    -152/1000.  It is the reading used to state a bound on a displayed
    entry; the script itself never parses these strings. *)

Module Percent.

Definition digit_of (c : ascii) : option Z :=
  let n := nat_of_ascii c in
  if ((48 <=? n) && (n <=? 57))%nat then Some (Z.of_nat (n - 48)) else None.

Fixpoint read_percent (s : string) (num : Z) (frac : option nat) : option (Z * nat) :=
  match s with
  | EmptyString => None
  | String c s' =>
      if Ascii.eqb c "%" then
        match s' with
        | EmptyString => Some (num, match frac with Some k => k | None => O end)
        | _ => None
        end
      else if Ascii.eqb c "." then
        match frac with
        | None => read_percent s' num (Some O)
        | Some _ => None
        end
      else
        match digit_of c with
        | Some d => read_percent s' (10 * num + d)
                      (match frac with Some k => Some (S k) | None => None end)
        | None => None
        end
  end.

Definition percent_value (s : string) : option Q :=
  let '(neg, body) :=
    match s with
    | String c s' => if Ascii.eqb c "-" then (true, s') else (false, s)
    | EmptyString => (false, s)
    end in
  match read_percent body 0 None with
  | Some (num, k) =>
      Some (Qmake (if neg : bool then - num else num) (Pos.of_nat (100 * 10 ^ k)))
  | None => None
  end.

End Percent.

(** ** Concrete runs *)

Module Runs.

Definition clock : Date.date := Eval cbv in Date.days_from_civil 2026 11 3.


(** Every widget untouched. *)
Definition default : St.World := St.mkWorld clock St.untouched.


(** GoldenCross with the fast slider at its maximum 60 and the slow slider at
    its minimum 50, and the run button pressed. *)
Definition overlap : St.World :=
  St.mkWorld clock
    (St.click "🚀 執行策略回測" true
      (St.slide "短期均線 (Fast MA)" 60
        (St.slide "長期均線 (Slow MA)" 50 St.untouched))).

(** GoldenCross with both sliders moved, fast 49 and slow 50. *)
Definition goldencross : St.World :=
  St.mkWorld clock
    (St.click "🚀 執行策略回測" true
      (St.slide "短期均線 (Fast MA)" 49
        (St.slide "長期均線 (Slow MA)" 50 St.untouched))).

(** MultiFactor with the buy threshold at its maximum 40 and the sell
    threshold at its minimum 60. *)
Definition multifactor : St.World :=
  St.mkWorld clock
    (St.slide "RSI 買入閾值" 40
      (St.slide "RSI 賣出閾值" 60
        (St.choose "選擇回測策略" 2 St.untouched))).

(** The ticker typed in lower case, Breakout chosen, both dates picked. *)
Definition typed : St.World :=
  St.mkWorld clock
    (St.type_text "請輸入美股代碼" "msft"
      (St.pick_date "起始日期" 19000
        (St.pick_date "結束日期" 20000
          (St.choose "選擇回測策略" 1 St.untouched)))).


End Runs.

(** * Properties *)

Import Py.

Arguments Date.isoformat : simpl never.
Arguments Date.in_range : simpl never.
Arguments Py.str_int : simpl never.
Arguments String.append : simpl never.
Arguments Z.mul : simpl never.
Arguments Z.sub : simpl never.

Lemma Some_eq {A : Type} (a b : A) : Some a = Some b -> b = a.
Proof. congruence. Qed.

(** ** Lists built by comprehension over [range] *)

Lemma range_length (n : nat) : List.length (range n) = n.
Proof. unfold range. now rewrite length_map, length_seq. Qed.

Lemma range_nth_error (n i : nat) :
  (i < n)%nat -> nth_error (range n) i = Some (Z.of_nat i).
Proof.
  intros Hi. unfold range.
  apply map_nth_error.
  rewrite (nth_error_nth' _ 0%nat) by (now rewrite length_seq).
  now rewrite seq_nth.
Qed.

Lemma comprehension_nth_error (f : Z -> Z) (n i : nat) (v : Z) :
  nth_error (map f (range n)) i = Some v -> (i < n)%nat /\ v = f (Z.of_nat i).
Proof.
  intros H.
  assert (Hi : (i < n)%nat).
  { rewrite <- (range_length n), <- (length_map f).
    apply nth_error_Some. congruence. }
  split; [exact Hi|].
  rewrite (map_nth_error f i (range n) (range_nth_error n i Hi)) in H.
  congruence.
Qed.

Lemma comprehension_at (f : Z -> Z) (n i : nat) :
  (i < n)%nat -> nth_error (map f (range n)) i = Some (f (Z.of_nat i)).
Proof. intros Hi. apply map_nth_error. now apply range_nth_error. Qed.

(** ** The synthetic candlestick chart *)

(** The one trace of the chart, read off the [data] dict. *)
Lemma chart_trace (ticker : string) (fig : Go.Figure) :
  App.get_dummy_candlestick_chart ticker = Ok fig ->
  exists x open high low close,
    dict_get App.data "Date" = Some x /\
    dict_get App.data "Open" = Some open /\
    dict_get App.data "High" = Some high /\
    dict_get App.data "Low" = Some low /\
    dict_get App.data "Close" = Some close /\
    Go.data fig = [Go.mkCandlestick x open high low close "Candlestick"] /\
    Go.layout fig =
      Go.mkLayout (Some (ticker ++ " 股價走勢 (模擬數據)")) (Some false) (Some 500).
Proof.
  intros H.
  unfold App.get_dummy_candlestick_chart, Pd.col, Pd.mkDataFrame, getitem in H.
  destruct (dict_get App.data "Date") as [x|] eqn:Ex; [|discriminate].
  destruct (dict_get App.data "Open") as [o|] eqn:Eo; [|discriminate].
  destruct (dict_get App.data "High") as [h|] eqn:Eh; [|discriminate].
  destruct (dict_get App.data "Low") as [l|] eqn:El; [|discriminate].
  destruct (dict_get App.data "Close") as [c|] eqn:Ec; [|discriminate].
  cbn [res_bind] in H. injection H as <-.
  exists x, o, h, l, c. repeat split; reflexivity.
Qed.

(** The chart function never raises. *)
Lemma get_dummy_candlestick_chart_total (ticker : string) :
  exists fig, App.get_dummy_candlestick_chart ticker = Ok fig.
Proof. eexists. reflexivity. Qed.

Lemma data_Date :
  dict_get App.data "Date" =
  Some (map (fun i => 20089 * Date.ns_per_day + i * Date.ns_per_day) (range 100)).
Proof. reflexivity. Qed.

Lemma data_Open :
  dict_get App.data "Open" = Some (map (fun i => 100 + i mod 10) (range 100)).
Proof. reflexivity. Qed.

Lemma data_High :
  dict_get App.data "High" = Some (map (fun i => 105 + i mod 10) (range 100)).
Proof. reflexivity. Qed.

Lemma data_Low :
  dict_get App.data "Low" = Some (map (fun i => 95 + i mod 10) (range 100)).
Proof. reflexivity. Qed.

Lemma data_Close :
  dict_get App.data "Close" = Some (map (fun i => 102 + i mod 10) (range 100)).
Proof. reflexivity. Qed.

(** C4.  The chart's timestamps are strictly increasing: the Date column of
    the figure returned by [get_dummy_candlestick_chart] has 100 entries, and
    for all indices i < j the entry at i is smaller than the entry at j. *)
Theorem chart_dates_strictly_increasing (ticker : string) (fig : Go.Figure)
    (trace : Go.Candlestick) (i j : nat) (di dj : Z) :
  App.get_dummy_candlestick_chart ticker = Ok fig ->
  In trace (Go.data fig) ->
  nth_error (Go.x trace) i = Some di ->
  nth_error (Go.x trace) j = Some dj ->
  (i < j)%nat ->
  List.length (Go.x trace) = 100%nat /\ di < dj.
Proof.
  intros Hfig Htrace Hi Hj Hlt.
  destruct (chart_trace _ _ Hfig) as (x & o & h & l & c & Hx & _ & _ & _ & _ & Hd & _).
  rewrite Hd in Htrace. destruct Htrace as [<-|[]].
  cbv beta iota delta [Go.x] in Hi, Hj |- *.
  rewrite data_Date in Hx. apply Some_eq in Hx. subst x.
  split.
  - now rewrite length_map, range_length.
  - apply comprehension_nth_error in Hi, Hj.
    destruct Hi as [_ ->], Hj as [_ ->].
    unfold Date.ns_per_day. lia.
Qed.

(** C9.  Every bar of the chart is OHLC-consistent: at every index i below
    100 the four columns hold 95, 100, 102 and 105 plus i mod 10, so that
    Low <= Open <= Close <= High, Low is the least and High the greatest of
    the bar's four prices. *)
Theorem chart_bars_ohlc_consistent (ticker : string) (fig : Go.Figure)
    (trace : Go.Candlestick) (i : nat) :
  App.get_dummy_candlestick_chart ticker = Ok fig ->
  In trace (Go.data fig) ->
  (i < 100)%nat ->
  exists o h l c,
    nth_error (Go.open trace) i = Some o /\
    nth_error (Go.high trace) i = Some h /\
    nth_error (Go.low trace) i = Some l /\
    nth_error (Go.close trace) i = Some c /\
    l = 95 + Z.of_nat i mod 10 /\ o = 100 + Z.of_nat i mod 10 /\
    c = 102 + Z.of_nat i mod 10 /\ h = 105 + Z.of_nat i mod 10 /\
    l <= o <= c /\ c <= h /\
    l = Z.min (Z.min o h) (Z.min l c) /\ h = Z.max (Z.max o h) (Z.max l c).
Proof.
  intros Hfig Htrace Hi.
  destruct (chart_trace _ _ Hfig) as (x & o & h & l & c & _ & Ho & Hh & Hl & Hc & Hd & _).
  rewrite Hd in Htrace. destruct Htrace as [<-|[]].
  cbv beta iota delta [Go.open Go.high Go.low Go.close].
  rewrite data_Open in Ho. rewrite data_High in Hh.
  rewrite data_Low in Hl. rewrite data_Close in Hc.
  apply Some_eq in Ho, Hh, Hl, Hc.
  subst o h l c.
  exists (100 + Z.of_nat i mod 10), (105 + Z.of_nat i mod 10),
         (95 + Z.of_nat i mod 10), (102 + Z.of_nat i mod 10).
  rewrite !comprehension_at by exact Hi.
  repeat split; lia.
Qed.

(** ** Runs of the script *)

Arguments App.get_dummy_candlestick_chart : simpl never.

Lemma pair_eq {A B : Type} (a a' : A) (b b' : B) :
  (a, b) = (a', b') -> a' = a /\ b' = b.
Proof. intros H. split; congruence. Qed.

Lemma Ok_eq {A : Type} (a a' : A) : Ok a = Ok a' -> a = a'.
Proof. congruence. Qed.

(** Symbolic evaluation of a run [H : St.run (App.app upper) w = (r, log)]:
    unfold the script and the Streamlit calls, split on the clock check, the
    chosen strategy and the button, and name the chart. *)
Ltac unfold_script H :=
  cbv beta iota delta
    [St.run App.app App.sidebar_controls App.main_content
     App.run_backtest_button App.parameter_sliders
     St.bind St.ret St.lift St.emit St.within St.sidebar St.date_today
     St.set_page_config St.title St.header St.subheader St.markdown St.caption
     St.info St.warning St.success St.plotly_chart St.dataframe
     St.text_input St.date_input St.selectbox St.slider St.button St.tabs
     Date.sub_days] in H.

Ltac split_clock H :=
  match type of H with
  | context [Date.in_range ?d] =>
      first [ match goal with E : Date.in_range d = _ |- _ => rewrite E in H end
            | let Hclock := fresh "Hclock" in
              destruct (Date.in_range d) eqn:Hclock ]
  end.

Ltac split_strategy H :=
  match type of H with
  | context [St.select_state ?s ?l] =>
      first [ match goal with E : St.select_state s l = _ |- _ => rewrite E in H end
            | let Hsel := fresh "Hsel" in
              destruct (St.select_state s l) as [[|[|[|[|?]]]]|] eqn:Hsel ]
  end.

Ltac split_button H :=
  match type of H with
  | context [St.button_state ?s ?l] =>
      first [ match goal with E : St.button_state s l = _ |- _ => rewrite E in H end
            | let Hbtn := fresh "Hbtn" in
              destruct (St.button_state s l) eqn:Hbtn ]
  end.

Ltac name_chart H :=
  match type of H with
  | context [App.get_dummy_candlestick_chart ?t] =>
      first [ match goal with
              | E : App.get_dummy_candlestick_chart t = _ |- _ => rewrite E in H
              end
            | let fig := fresh "fig" in
              let Hfig := fresh "Hfig" in
              destruct (get_dummy_candlestick_chart_total t) as [fig Hfig];
              rewrite Hfig in H ]
  end.

Ltac eval_run H :=
  unfold_script H; cbn [St.today St.session] in H;
  try split_clock H; cbn in H;
  try split_strategy H; cbn in H;
  try split_button H; cbn in H;
  try name_chart H; cbn in H;
  let Hres := fresh "Hres" in
  let Hlog := fresh "Hlog" in
  apply pair_eq in H; destruct H as [Hres Hlog];
  first [ discriminate Hres | apply Ok_eq in Hres | idtac ].

Ltac bool_hyps :=
  repeat match goal with
         | H : _ && _ = true |- _ => apply andb_true_iff in H; destruct H
         | H : (_ <=? _) = true |- _ => apply Z.leb_le in H
         | H : true = true |- _ => clear H
         end.

(** C6.  Every MultiFactor configuration of a completed run whose widgets
    hold selectable values has rsi_buy within 10..40 and rsi_sell within
    60..90, hence rsi_buy < rsi_sell. *)
Theorem multifactor_buy_below_sell (upper : string -> string) (w : St.World)
    (g : App.Globals) (log : St.Log) (rsi_buy rsi_sell : Z) :
  St.run (App.app upper) w = (Ok g, log) ->
  St.all_selectable log = true ->
  App.params g = App.MultiFactor rsi_buy rsi_sell ->
  10 <= rsi_buy <= 40 /\ 60 <= rsi_sell <= 90 /\ rsi_buy < rsi_sell.
Proof.
  intros H Hok Hp.
  eval_run H; subst g log; cbn in Hp; try discriminate.
  all: cbn in Hok; bool_hyps.
  all: injection Hp as <- <-; lia.
Qed.

(** The script completes whenever ten years before today is a date and the
    strategy selector holds one of its options. *)
Lemma app_completes (upper : string -> string) (w : St.World) :
  Date.in_range (St.today w - 10 * 365) = true ->
  St.all_selectable (snd (St.run (App.app upper) w)) = true ->
  exists g, fst (St.run (App.app upper) w) = Ok g.
Proof.
  intros Hclock Hok.
  destruct (St.run (App.app upper) w) as [r log] eqn:H.
  cbn [fst snd] in *.
  eval_run H; subst r log; try (eexists; reflexivity); cbn in Hok;
    rewrite ?andb_false_r in Hok; discriminate.
Qed.

(** ** Strategy parameters *)

Ltac find_in := cbn; repeat first [ left; reflexivity | right ].

(** C1, as stated, fails: with the fast slider at 60 and the slow slider at
    50 the run completes on selectable values with fast_ma > slow_ma, and the
    pressed button still reports the request as sent. *)
Lemma goldencross_overlap_is_submitted :
  exists g log,
    St.run (App.app ascii_upper) Runs.overlap = (Ok g, log) /\
    St.all_selectable log = true /\
    App.params g = App.GoldenCross 60 50 /\
    ~ 60 < 50 /\
    App.request_submitted log.
Proof.
  eexists. eexists.
  split; [vm_compute; reflexivity|].
  split; [reflexivity|].
  split; [reflexivity|].
  split; [lia|].
  unfold App.request_submitted. find_in.
Qed.

(** C1, amended.  In a completed run on selectable values with GoldenCross
    selected, fast_ma is within 5..60 and slow_ma within 50..300; fast_ma <
    slow_ma holds whenever fast_ma < 50 or slow_ma > 60; and nothing is
    rejected: a pressed button always reports the request as sent. *)
Theorem goldencross_ranges_and_submission (upper : string -> string)
    (w : St.World) (g : App.Globals) (log : St.Log) (fast_ma slow_ma : Z) :
  St.run (App.app upper) w = (Ok g, log) ->
  St.all_selectable log = true ->
  App.params g = App.GoldenCross fast_ma slow_ma ->
  5 <= fast_ma <= 60 /\ 50 <= slow_ma <= 300 /\
  (fast_ma < 50 \/ 60 < slow_ma -> fast_ma < slow_ma) /\
  (St.button_state (St.session w) "🚀 執行策略回測" = true -> App.request_submitted log).
Proof.
  intros H Hok Hp.
  eval_run H; subst g log; cbn in Hp; try discriminate.
  all: cbn in Hok; bool_hyps.
  all: injection Hp as <- <-.
  all: repeat split; try lia.
  all: intros Hpressed; try discriminate Hpressed.
  all: unfold App.request_submitted; find_in.
Qed.

(** C6 holds on the tightest pair: buy threshold 40, sell threshold 60. *)
Lemma multifactor_buy_below_sell_witness :
  exists g log,
    St.run (App.app ascii_upper) Runs.multifactor = (Ok g, log) /\
    App.params g = App.MultiFactor 40 60 /\
    (10 <= 40 <= 40 /\ 60 <= 60 <= 90 /\ 40 < 60).
Proof.
  eexists. eexists.
  split; [vm_compute; reflexivity|].
  split; [reflexivity|].
  eapply (multifactor_buy_below_sell ascii_upper Runs.multifactor).
  - vm_compute. reflexivity.
  - reflexivity.
  - reflexivity.
Defined.

(** The amended C1 on a run with fast 49, slow 50 and the button pressed. *)
Lemma goldencross_ranges_and_submission_witness :
  exists g log,
    St.run (App.app ascii_upper) Runs.goldencross = (Ok g, log) /\
    App.params g = App.GoldenCross 49 50 /\
    49 < 50 /\ App.request_submitted log.
Proof.
  eexists. eexists.
  split; [vm_compute; reflexivity|].
  split; [reflexivity|].
  pose proof (goldencross_ranges_and_submission ascii_upper Runs.goldencross
                _ _ 49 50 eq_refl eq_refl eq_refl) as (_ & _ & Hlt & Hsub).
  split.
  - apply Hlt. left. lia.
  - apply Hsub. reflexivity.
Defined.

(** C5.  The strategy selector is closed over three alternatives: the dict
    maps its three option names to GoldenCross, Breakout and MultiFactor, the
    selectbox of a completed run offers exactly those names and holds one of
    them, the selected key is the one that name maps to, and the parameters
    bound are those of that alternative.  Each of the three can be selected. *)
Theorem strategy_selector_three_alternatives (upper : string -> string)
    (w : St.World) (g : App.Globals) (log : St.Log) :
  St.run (App.app upper) w = (Ok g, log) ->
  values App.strategy_options = ["GoldenCross"; "Breakout"; "MultiFactor"] /\
  (exists i name,
     In (St.Sidebar, St.Selectbox "選擇回測策略" (keys App.strategy_options) i) log /\
     (i < 3)%nat /\
     nth_error App.strategy_options i = Some (name, App.selected_strategy_key g) /\
     App.selected_strategy_name g = Some name) /\
  ((App.selected_strategy_key g = "GoldenCross" /\
      exists fast_ma slow_ma, App.params g = App.GoldenCross fast_ma slow_ma) \/
   (App.selected_strategy_key g = "Breakout" /\
      exists period, App.params g = App.Breakout period) \/
   (App.selected_strategy_key g = "MultiFactor" /\
      exists rsi_buy rsi_sell, App.params g = App.MultiFactor rsi_buy rsi_sell)) /\
  (forall key, In key (values App.strategy_options) ->
     exists w' g' log',
       St.run (App.app upper) w' = (Ok g', log') /\
       St.all_selectable log' = true /\
       App.selected_strategy_key g' = key).
Proof.
  intros H.
  split; [reflexivity|].
  split; [|split].
  - eval_run H; subst g log.
    1-2, 7-8: (exists 0%nat; eexists; split; [find_in|];
               split; [lia|]; split; reflexivity).
    1-2: (exists 1%nat; eexists; split; [find_in|];
          split; [lia|]; split; reflexivity).
    all: (exists 2%nat; eexists; split; [find_in|];
          split; [lia|]; split; reflexivity).
  - eval_run H; subst g log; cbn.
    1-2, 7-8: (left; split; [reflexivity|]; eexists; eexists; reflexivity).
    1-2: (right; left; split; [reflexivity|]; eexists; reflexivity).
    all: (right; right; split; [reflexivity|]; eexists; eexists; reflexivity).
  - intros key [<-|[<-|[<-|[]]]].
    + exists Runs.default. eexists. eexists.
      split; [vm_compute; reflexivity|]. split; reflexivity.
    + exists (St.mkWorld Runs.clock (St.choose "選擇回測策略" 1 St.untouched)).
      eexists. eexists.
      split; [vm_compute; reflexivity|]. split; reflexivity.
    + exists (St.mkWorld Runs.clock (St.choose "選擇回測策略" 2 St.untouched)).
      eexists. eexists.
      split; [vm_compute; reflexivity|]. split; reflexivity.
Qed.

(** ** The run button *)

Ltac split_log_at_button :=
  match goal with
  | |- exists before after, ?L = _ /\ _ =>
      let n := eval cbn in (St.button_index L) in
      exists (firstn n L), (skipn (S n) L); split; cbn; reflexivity
  end.

Lemma same_container_true (c c' : St.Container) :
  St.same_container c c' = true -> c = c'.
Proof.
  destruct c, c'; cbn; try discriminate; try reflexivity.
  intros H. apply Nat.eqb_eq in H. now subst.
Qed.

Lemma elements_after_button (c : St.Container) (before after : St.Log)
    (b x : St.Container * St.Elem) :
  fst x <> c ->
  St.elements c (before ++ b :: x :: after)%list =
  St.elements c (before ++ b :: after)%list.
Proof.
  intros Hx. unfold St.elements.
  rewrite !filter_app. cbn [filter].
  destruct (St.same_container (fst x) c) eqn:E.
  - apply same_container_true in E. contradiction.
  - reflexivity.
Qed.

(** C3.  Pressing the run button only adds the sidebar status message: the
    two runs that differ in the button alone end the same way (same
    variables, or the same exception), every container but the sidebar holds
    the same elements, and when the script completes the pressed run's log is
    the released run's log with the one success message inserted right after
    the button. *)
Theorem run_button_only_adds_status (upper : string -> string)
    (today : Date.date) (s : St.Session) :
  let released :=
    St.run (App.app upper) (St.mkWorld today (St.click "🚀 執行策略回測" false s)) in
  let pressed :=
    St.run (App.app upper) (St.mkWorld today (St.click "🚀 執行策略回測" true s)) in
  fst pressed = fst released /\
  (forall c, c <> St.Sidebar ->
     St.elements c (snd pressed) = St.elements c (snd released)) /\
  (forall e, fst released = Raise e -> snd pressed = snd released) /\
  (forall g, fst released = Ok g ->
     exists before after,
       snd released =
         (before ++ (St.Sidebar, St.Button "🚀 執行策略回測") :: after)%list /\
       snd pressed =
         (before ++ (St.Sidebar, St.Button "🚀 執行策略回測")
                 :: (St.Sidebar, St.Success "回測請求已送出...") :: after)%list).
Proof.
  intros released pressed. subst released pressed.
  destruct (St.run _ (St.mkWorld today (St.click _ false s))) as [r1 log1] eqn:H1.
  destruct (St.run _ (St.mkWorld today (St.click _ true s))) as [r2 log2] eqn:H2.
  cbn [fst snd].
  eval_run H1; eval_run H2; subst r1 log1 r2 log2.
  all: split; [reflexivity|].
  all: match goal with
       | |- context [St.Success _] =>
           match goal with
           | |- (forall c, _ -> St.elements c ?L2 = St.elements c ?L1) /\ _ =>
               assert (Hcut : exists before after,
                         L1 = (before ++ (St.Sidebar, St.Button "🚀 執行策略回測")
                                 :: after)%list /\
                         L2 = (before ++ (St.Sidebar, St.Button "🚀 執行策略回測")
                                 :: (St.Sidebar, St.Success "回測請求已送出...")
                                 :: after)%list)
                 by split_log_at_button
           end;
           split; [|split; [intros e He; discriminate He | intros g _; exact Hcut]];
           destruct Hcut as (before & after & -> & ->);
           intros c Hc; apply elements_after_button; cbn; congruence
       | |- _ =>
           split; [reflexivity|];
           split; [reflexivity|]; intros g Hg; discriminate Hg
       end.
Qed.

(** ** Page content *)

(** C7.  The one table of a completed run's page is the metrics table of the
    backtest tab; its 最大回撤 entry is shown as -15.2%, which denotes
    -152/1000, a number between -1 and 0. *)
Theorem max_drawdown_entry_in_range (upper : string -> string) (w : St.World)
    (g : App.Globals) (log : St.Log) :
  St.run (App.app upper) w = (Ok g, log) ->
  exists df shown x,
    St.dataframes (map snd log) = [df] /\
    St.dataframes (St.elements (St.Tab 4) log) = [df] /\
    Pd.cell df "指標" "最大回撤" "數值" = Some shown /\
    shown = "-15.2%" /\
    Percent.percent_value shown = Some x /\
    x = (-152 # 1000)%Q /\
    (-1 <= x)%Q /\ (x <= 0)%Q.
Proof.
  intros H.
  exists App.metrics, "-15.2%", (-152 # 1000)%Q.
  split; [eval_run H; subst g log; reflexivity|].
  split; [eval_run H; subst g log; reflexivity|].
  repeat split; try reflexivity; unfold Qle; cbn; lia.
Qed.

(** C8.  A completed run renders, for every input: the sidebar controls
    (ticker input, two date inputs, strategy selector, the sliders of the
    selected strategy, run button); a main area whose tab bar has exactly the
    five tabs overview, fundamentals, technicals, sentiment and backtest; and
    tab contents that are fixed texts, the synthetic candlestick chart and the
    fixed metrics table, varying only in the echoed ticker and strategy name. *)
Theorem page_controls_and_five_placeholder_tabs (upper : string -> string)
    (w : St.World) (g : App.Globals) (log : St.Log) :
  St.run (App.app upper) w = (Ok g, log) ->
  (exists sliders,
     St.widgets (St.elements St.Sidebar log) =
       ([ (St.KTextInput, "請輸入美股代碼");
          (St.KDateInput, "起始日期");
          (St.KDateInput, "結束日期");
          (St.KSelectbox, "選擇回測策略") ]
        ++ map (pair St.KSlider) sliders
        ++ [ (St.KButton, "🚀 執行策略回測") ])%list /\
     (sliders = ["短期均線 (Fast MA)"; "長期均線 (Slow MA)"] \/
      sliders = ["突破週期 (Period)"] \/
      sliders = ["RSI 買入閾值"; "RSI 賣出閾值"])) /\
  forallb (fun ce => match fst ce with
                     | St.Tab k => (k <? 5)%nat
                     | _ => true
                     end) log = true /\
  St.elements St.Main log =
    [ St.Title ("美股綜合分析系統 - " ++ App.ticker g);
      St.Markdown ("分析期間: **" ++ Date.isoformat (App.start_date g) ++ "** 至 **"
                   ++ Date.isoformat (App.end_date g) ++ "**");
      St.Tabs [ "總覽 (Overview)"; "基本面 (Fundamental)"; "技術面 (Technical)";
                "心理面 (Sentiment)"; "策略回測 (Backtest)" ];
      St.Markdown "---";
      St.Caption "本應用程式為美股分析系統的 Streamlit 介面設計範例。" ] /\
  (exists fig,
     App.get_dummy_candlestick_chart (App.ticker g) = Ok fig /\
     Go.data fig =
       [Go.mkCandlestick
          (map (fun i => 20089 * Date.ns_per_day + i * Date.ns_per_day) (range 100))
          (map (fun i => 100 + i mod 10) (range 100))
          (map (fun i => 105 + i mod 10) (range 100))
          (map (fun i => 95 + i mod 10) (range 100))
          (map (fun i => 102 + i mod 10) (range 100))
          "Candlestick"] /\
     St.elements (St.Tab 0) log =
       [ St.Header "總覽";
         St.Info ("正在顯示 " ++ App.ticker g ++ " 的公司基本資訊與股價摘要...");
         St.Subheader "股價走勢";
         St.PlotlyChart fig ]) /\
  St.elements (St.Tab 1) log =
    [ St.Header "基本面分析";
      St.Warning "此處將顯示財務報表趨勢圖與財務比率表格。" ] /\
  St.elements (St.Tab 2) log =
    [ St.Header "技術面分析";
      St.Warning "此處將顯示可疊加技術指標的互動式 K 線圖。" ] /\
  St.elements (St.Tab 3) log =
    [ St.Header "心理面分析";
      St.Warning "此處將顯示 VIX 恐慌指數圖與新聞情緒分析結果。" ] /\
  St.elements (St.Tab 4) log =
    [ St.Header "策略回測結果";
      St.Warning ("當前選擇策略: **" ++ str_opt (App.selected_strategy_name g)
                  ++ "**。回測結果將在此處呈現。");
      St.Subheader "績效指標 (Performance Metrics)";
      St.Dataframe
        [ ("指標", ["年化報酬率"; "最大回撤"; "夏普比率"]);
          ("數值", ["25.5%"; "-15.2%"; "1.5"]) ];
      St.Subheader "權益曲線圖 (Equity Curve)" ].
Proof.
  intros H.
  eval_run H; subst g log.
  all: split;
    [ first [ exists ["短期均線 (Fast MA)"; "長期均線 (Slow MA)"];
              split; [reflexivity | left; reflexivity]
            | exists ["突破週期 (Period)"];
              split; [reflexivity | right; left; reflexivity]
            | exists ["RSI 買入閾值"; "RSI 賣出閾值"];
              split; [reflexivity | right; right; reflexivity] ] |].
  all: split; [reflexivity|].
  all: split; [reflexivity|].
  all: split;
    [ exists fig; split; [exact Hfig|]; split; [|reflexivity];
      destruct (chart_trace _ _ Hfig)
        as (x & o & h & l & c & Hx & Ho & Hh & Hl & Hc & -> & _);
      rewrite data_Date in Hx; rewrite data_Open in Ho; rewrite data_High in Hh;
      rewrite data_Low in Hl; rewrite data_Close in Hc;
      apply Some_eq in Hx, Ho, Hh, Hl, Hc; subst x o h l c; reflexivity |].
  all: repeat split; reflexivity.
Qed.



(** ** The wall clock *)





(** ** The theorems at concrete runs *)

(** C4 at the first and the last bar of the chart for AAPL. *)
Lemma chart_dates_strictly_increasing_witness :
  exists fig trace,
    App.get_dummy_candlestick_chart "AAPL" = Ok fig /\
    In trace (Go.data fig) /\
    nth_error (Go.x trace) 0 = Some 1735689600000000000 /\
    nth_error (Go.x trace) 99 = Some 1744243200000000000 /\
    List.length (Go.x trace) = 100%nat /\
    1735689600000000000 < 1744243200000000000.
Proof.
  eexists. eexists.
  split; [reflexivity|].
  split; [left; reflexivity|].
  split; [reflexivity|].
  split; [reflexivity|].
  eapply (chart_dates_strictly_increasing "AAPL" _ _ 0 99).
  - reflexivity.
  - left. reflexivity.
  - reflexivity.
  - reflexivity.
  - lia.
Defined.

(** C9 at bar 57 of the chart for AAPL. *)
Lemma chart_bars_ohlc_consistent_witness :
  exists fig trace,
    App.get_dummy_candlestick_chart "AAPL" = Ok fig /\
    In trace (Go.data fig) /\
    exists o h l c,
      nth_error (Go.open trace) 57 = Some o /\
      nth_error (Go.high trace) 57 = Some h /\
      nth_error (Go.low trace) 57 = Some l /\
      nth_error (Go.close trace) 57 = Some c /\
      l = 95 + Z.of_nat 57 mod 10 /\ o = 100 + Z.of_nat 57 mod 10 /\
      c = 102 + Z.of_nat 57 mod 10 /\ h = 105 + Z.of_nat 57 mod 10 /\
      l <= o <= c /\ c <= h /\
      l = Z.min (Z.min o h) (Z.min l c) /\ h = Z.max (Z.max o h) (Z.max l c).
Proof.
  eexists. eexists.
  split; [reflexivity|].
  split; [left; reflexivity|].
  eapply (chart_bars_ohlc_consistent "AAPL").
  - reflexivity.
  - left. reflexivity.
  - lia.
Defined.

(** C5 on a run with the third option chosen. *)
Lemma strategy_selector_three_alternatives_witness :
  exists g log,
    St.run (App.app ascii_upper) Runs.multifactor = (Ok g, log) /\
    ((App.selected_strategy_key g = "GoldenCross" /\
        exists fast_ma slow_ma, App.params g = App.GoldenCross fast_ma slow_ma) \/
     (App.selected_strategy_key g = "Breakout" /\
        exists period, App.params g = App.Breakout period) \/
     (App.selected_strategy_key g = "MultiFactor" /\
        exists rsi_buy rsi_sell, App.params g = App.MultiFactor rsi_buy rsi_sell)).
Proof.
  eexists. eexists.
  split; [vm_compute; reflexivity|].
  exact (proj1 (proj2 (proj2
    (strategy_selector_three_alternatives ascii_upper Runs.multifactor _ _ eq_refl)))).
Defined.

(** C3 on the untouched session, button released and pressed. *)
Lemma run_button_only_adds_status_witness :
  exists before after,
    snd (St.run (App.app ascii_upper)
           (St.mkWorld Runs.clock (St.click "🚀 執行策略回測" false St.untouched))) =
      (before ++ (St.Sidebar, St.Button "🚀 執行策略回測") :: after)%list /\
    snd (St.run (App.app ascii_upper)
           (St.mkWorld Runs.clock (St.click "🚀 執行策略回測" true St.untouched))) =
      (before ++ (St.Sidebar, St.Button "🚀 執行策略回測")
              :: (St.Sidebar, St.Success "回測請求已送出...") :: after)%list.
Proof.
  destruct (run_button_only_adds_status ascii_upper Runs.clock St.untouched)
    as (_ & _ & _ & Hok).
  eapply Hok. vm_compute. reflexivity.
Defined.

(** C7 on the untouched session. *)
Lemma max_drawdown_entry_in_range_witness :
  exists g log,
    St.run (App.app ascii_upper) Runs.default = (Ok g, log) /\
    exists df shown x,
      St.dataframes (map snd log) = [df] /\
      St.dataframes (St.elements (St.Tab 4) log) = [df] /\
      Pd.cell df "指標" "最大回撤" "數值" = Some shown /\
      shown = "-15.2%" /\
      Percent.percent_value shown = Some x /\
      x = (-152 # 1000)%Q /\
      (-1 <= x)%Q /\ (x <= 0)%Q.
Proof.
  eexists. eexists.
  split; [vm_compute; reflexivity|].
  exact (max_drawdown_entry_in_range ascii_upper Runs.default _ _ eq_refl).
Defined.

(** C8 on a run with the ticker typed and both dates picked: its main area. *)
Lemma page_controls_and_five_placeholder_tabs_witness :
  exists g log,
    St.run (App.app ascii_upper) Runs.typed = (Ok g, log) /\
    St.elements St.Main log =
      [ St.Title "美股綜合分析系統 - MSFT";
        St.Markdown "分析期間: **2022-01-08** 至 **2024-10-04**";
        St.Tabs [ "總覽 (Overview)"; "基本面 (Fundamental)"; "技術面 (Technical)";
                  "心理面 (Sentiment)"; "策略回測 (Backtest)" ];
        St.Markdown "---";
        St.Caption "本應用程式為美股分析系統的 Streamlit 介面設計範例。" ].
Proof.
  eexists. eexists.
  split; [vm_compute; reflexivity|].
  exact (proj1 (proj2 (proj2
    (page_controls_and_five_placeholder_tabs ascii_upper Runs.typed _ _ eq_refl)))).
Defined.



(** * Further properties of the script *)

(** ** The chart data *)

Lemma comprehension_length (f : Z -> Z) (n : nat) :
  List.length (map f (range n)) = n.
Proof. now rewrite length_map, range_length. Qed.

Lemma chart_columns (ticker : string) (fig : Go.Figure) (trace : Go.Candlestick) :
  App.get_dummy_candlestick_chart ticker = Ok fig ->
  In trace (Go.data fig) ->
  trace = Go.mkCandlestick
            (map (fun i => 20089 * Date.ns_per_day + i * Date.ns_per_day) (range 100))
            (map (fun i => 100 + i mod 10) (range 100))
            (map (fun i => 105 + i mod 10) (range 100))
            (map (fun i => 95 + i mod 10) (range 100))
            (map (fun i => 102 + i mod 10) (range 100))
            "Candlestick".
Proof.
  intros Hfig Htrace.
  destruct (chart_trace _ _ Hfig)
    as (x & o & h & l & c & Hx & Ho & Hh & Hl & Hc & Hd & _).
  rewrite Hd in Htrace. destruct Htrace as [<-|[]].
  rewrite data_Date in Hx. rewrite data_Open in Ho. rewrite data_High in Hh.
  rewrite data_Low in Hl. rewrite data_Close in Hc.
  apply Some_eq in Hx, Ho, Hh, Hl, Hc. now subst.
Qed.

(** X1.  The chart has one trace whose five columns all have 100 entries,
    so a bar index has a date and four prices exactly when it is below 100. *)
Theorem chart_columns_aligned (ticker : string) (fig : Go.Figure)
    (trace : Go.Candlestick) (i : nat) :
  App.get_dummy_candlestick_chart ticker = Ok fig ->
  In trace (Go.data fig) ->
  List.length (Go.data fig) = 1%nat /\
  List.length (Go.x trace) = 100%nat /\
  List.length (Go.open trace) = 100%nat /\
  List.length (Go.high trace) = 100%nat /\
  List.length (Go.low trace) = 100%nat /\
  List.length (Go.close trace) = 100%nat /\
  ((i < 100)%nat <->
     nth_error (Go.x trace) i <> None /\ nth_error (Go.open trace) i <> None /\
     nth_error (Go.high trace) i <> None /\ nth_error (Go.low trace) i <> None /\
     nth_error (Go.close trace) i <> None).
Proof.
  intros Hfig Htrace.
  pose proof (chart_columns _ _ _ Hfig Htrace) as ->.
  destruct (chart_trace _ _ Hfig) as (? & ? & ? & ? & ? & _ & _ & _ & _ & _ & Hd & _).
  cbv beta iota delta [Go.x Go.open Go.high Go.low Go.close].
  rewrite Hd, !comprehension_length.
  repeat split; try reflexivity.
  1-5: (apply nth_error_Some; now rewrite comprehension_length).
  intros (Hx & _). apply nth_error_Some in Hx.
  now rewrite comprehension_length in Hx.
Qed.

(** X2.  The chart's dates are consecutive calendar days at midnight: the
    entry at index i is day 2025-01-01 plus i, the next entry is exactly one
    day later, and all dates lie between 2025-01-01 and 2025-04-10. *)
Theorem chart_dates_daily (ticker : string) (fig : Go.Figure)
    (trace : Go.Candlestick) (i : nat) (d : Z) :
  App.get_dummy_candlestick_chart ticker = Ok fig ->
  In trace (Go.data fig) ->
  nth_error (Go.x trace) i = Some d ->
  d = (Date.days_from_civil 2025 1 1 + Z.of_nat i) * Date.ns_per_day /\
  d mod Date.ns_per_day = 0 /\
  Date.days_from_civil 2025 1 1 <= d / Date.ns_per_day
    <= Date.days_from_civil 2025 4 10 /\
  (forall d', nth_error (Go.x trace) (S i) = Some d' -> d' - d = Date.ns_per_day).
Proof.
  intros Hfig Htrace Hd.
  pose proof (chart_columns _ _ _ Hfig Htrace) as ->.
  cbv beta iota delta [Go.x] in *.
  apply comprehension_nth_error in Hd. destruct Hd as [Hi ->].
  change (Date.days_from_civil 2025 1 1) with 20089.
  change (Date.days_from_civil 2025 4 10) with 20188.
  assert (E : 20089 * Date.ns_per_day + Z.of_nat i * Date.ns_per_day
              = (20089 + Z.of_nat i) * Date.ns_per_day) by ring.
  rewrite E.
  assert (Hpos : Date.ns_per_day > 0) by (unfold Date.ns_per_day; lia).
  split; [reflexivity|].
  split; [apply Z.mod_mul; lia|].
  split; [rewrite Z.div_mul by lia; lia|].
  intros d' Hd'. apply comprehension_nth_error in Hd'. destruct Hd' as [_ ->].
  unfold Date.ns_per_day. lia.
Qed.

(** X3.  The chart's prices: every bar has Low within 95..104 and High
    within 105..114, closes 2 above its open and spans 10 from low to high,
    and the bar ten places later has the same four prices. *)
Theorem chart_prices_bounded_and_periodic (ticker : string) (fig : Go.Figure)
    (trace : Go.Candlestick) (i : nat) (o h l c : Z) :
  App.get_dummy_candlestick_chart ticker = Ok fig ->
  In trace (Go.data fig) ->
  nth_error (Go.open trace) i = Some o ->
  nth_error (Go.high trace) i = Some h ->
  nth_error (Go.low trace) i = Some l ->
  nth_error (Go.close trace) i = Some c ->
  95 <= l <= 104 /\ 105 <= h <= 114 /\ c - o = 2 /\ h - l = 10 /\
  ((i + 10 < 100)%nat ->
     nth_error (Go.open trace) (i + 10) = Some o /\
     nth_error (Go.high trace) (i + 10) = Some h /\
     nth_error (Go.low trace) (i + 10) = Some l /\
     nth_error (Go.close trace) (i + 10) = Some c).
Proof.
  intros Hfig Htrace Ho Hh Hl Hc.
  pose proof (chart_columns _ _ _ Hfig Htrace) as ->.
  cbv beta iota delta [Go.open Go.high Go.low Go.close] in *.
  apply comprehension_nth_error in Ho, Hh, Hl, Hc.
  destruct Ho as [Hi ->], Hh as [_ ->], Hl as [_ ->], Hc as [_ ->].
  pose proof (Z.mod_pos_bound (Z.of_nat i) 10 ltac:(lia)) as Hm.
  repeat split; try lia.
  all: rewrite comprehension_at by assumption.
  all: replace (Z.of_nat (i + 10)) with (Z.of_nat i + 1 * 10) by lia.
  all: now rewrite Z.mod_add by lia.
Qed.

Lemma append_length (a b : string) :
  String.length (a ++ b) = (String.length a + String.length b)%nat.
Proof.
  induction a as [|ch a IH]; [reflexivity|].
  change (S (String.length (a ++ b)) = S (String.length a + String.length b)).
  now rewrite IH.
Qed.

Lemma append_cancel_right (s a b : string) : a ++ s = b ++ s -> a = b.
Proof.
  revert b. induction a as [|ch a IH]; intros [|ch' b] H.
  - reflexivity.
  - apply (f_equal String.length) in H.
    rewrite !append_length in H. cbn [String.length] in H. lia.
  - apply (f_equal String.length) in H.
    rewrite !append_length in H. cbn [String.length] in H. lia.
  - change (String ch (a ++ s) = String ch' (b ++ s)) in H.
    injection H as -> H. f_equal. now apply IH.
Qed.

(** X4.  Charts of two tickers differ in their title alone: data, height and
    range-slider setting are the same, and the titles are equal only when the
    tickers are. *)
Theorem chart_depends_on_ticker_only_in_title (t1 t2 : string)
    (f1 f2 : Go.Figure) :
  App.get_dummy_candlestick_chart t1 = Ok f1 ->
  App.get_dummy_candlestick_chart t2 = Ok f2 ->
  Go.data f1 = Go.data f2 /\
  Go.height (Go.layout f1) = Some 500 /\
  Go.height (Go.layout f2) = Some 500 /\
  Go.xaxis_rangeslider_visible (Go.layout f1) = Some false /\
  Go.xaxis_rangeslider_visible (Go.layout f2) = Some false /\
  (Go.title (Go.layout f1) = Go.title (Go.layout f2) <-> t1 = t2).
Proof.
  intros H1 H2.
  destruct (chart_trace _ _ H1)
    as (x1 & o1 & h1 & l1 & c1 & Hx1 & Ho1 & Hh1 & Hl1 & Hc1 & Hd1 & Hy1).
  destruct (chart_trace _ _ H2)
    as (x2 & o2 & h2 & l2 & c2 & Hx2 & Ho2 & Hh2 & Hl2 & Hc2 & Hd2 & Hy2).
  rewrite Hd1, Hd2, Hy1, Hy2.
  cbv beta iota delta [Go.height Go.xaxis_rangeslider_visible Go.title].
  split; [congruence|].
  repeat split; try reflexivity.
  - intros E. apply Some_eq in E. symmetry. now apply append_cancel_right in E.
  - now intros ->.
Qed.

(** ** The calendar *)

Lemma is_leap_cases (y : Z) :
  (Date.is_leap y = true /\ (y mod 4 = 0 /\ y mod 100 <> 0 \/ y mod 400 = 0)) \/
  (Date.is_leap y = false /\ (y mod 4 <> 0 \/ y mod 100 = 0 /\ y mod 400 <> 0)).
Proof.
  unfold Date.is_leap.
  destruct (y mod 4 =? 0) eqn:E4; destruct (y mod 100 =? 0) eqn:E100;
    destruct (y mod 400 =? 0) eqn:E400; cbn [andb orb negb];
    rewrite ?Z.eqb_eq, ?Z.eqb_neq in *; intuition lia.
Qed.

(** The civil date of a day given by its March-based year and day of year. *)
Lemma civil_from_march_based (era yoe doy : Z) :
  0 <= yoe <= 399 ->
  0 <= doy <= 365 ->
  (doy = 365 -> (yoe + 1) mod 4 = 0 /\ ((yoe + 1) mod 100 <> 0 \/ yoe = 399)) ->
  Date.civil_from_days
    (era * 146097 + (yoe * 365 + yoe / 4 - yoe / 100 + doy) - 719468) =
  let mp := (5 * doy + 2) / 153 in
  let m := if mp <? 10 then mp + 3 else mp - 9 in
  (if m <=? 2 then yoe + era * 400 + 1 else yoe + era * 400, m,
   doy - (153 * mp + 2) / 5 + 1).
Proof.
  intros Hyoe Hdoy Hleap.
  unfold Date.civil_from_days. cbv zeta.
  set (doe := yoe * 365 + yoe / 4 - yoe / 100 + doy).
  assert (Hdoe : 0 <= doe <= 146096) by (subst doe; Z.div_mod_to_equations; lia).
  replace (era * 146097 + doe - 719468 + 719468) with (doe + era * 146097) by lia.
  rewrite Z.div_add by lia. rewrite (Z.div_small doe) by lia.
  replace (doe + era * 146097 - (0 + era) * 146097) with doe by lia.
  assert (Hyo : (doe - doe / 1460 + doe / 36524 - doe / 146096) / 365 = yoe)
    by (subst doe; Z.div_mod_to_equations; lia).
  rewrite Hyo.
  replace (doe - (365 * yoe + yoe / 4 - yoe / 100)) with doy by (subst doe; lia).
  reflexivity.
Qed.

Lemma civil_round_trip (y m d : Z) :
  1 <= m <= 12 -> 1 <= d <= Date.days_in_month y m ->
  Date.civil_from_days (Date.days_from_civil y m d) = (y, m, d).
Proof.
  intros Hm Hd.
  assert (Hcase : m = 1 \/ m = 2 \/ m = 3 \/ m = 4 \/ m = 5 \/ m = 6 \/ m = 7 \/
                  m = 8 \/ m = 9 \/ m = 10 \/ m = 11 \/ m = 12) by lia.
  clear Hm.
  unfold Date.days_in_month in Hd.
  destruct (is_leap_cases y) as [[Hl Hy]|[Hl Hy]]; rewrite Hl in Hd; clear Hl.
  all: repeat (destruct Hcase as [Hcase|Hcase]); subst m.
  all: cbn [Z.eqb Pos.eqb orb] in Hd.
  all: unfold Date.days_from_civil;
       cbn [Z.leb Z.compare Pos.compare Pos.compare_cont]; cbv zeta.
  all: match goal with
       | |- context [?y' / 400] =>
           set (era := y' / 400);
           set (yoe := y' - era * 400);
           assert (Hyoe : 0 <= yoe <= 399)
             by (subst yoe era; Z.div_mod_to_equations; lia);
           assert (Hy' : y' = yoe + era * 400) by (subst yoe; lia);
           clearbody yoe; clearbody era
       end.
  all: match goal with
       | |- context [(153 * ?mp + 2) / 5] =>
           let k := eval vm_compute in mp in
           let c := eval vm_compute in ((153 * mp + 2) / 5) in
           let mm := eval vm_compute in (if k <? 10 then k + 3 else k - 9) in
           let b := eval vm_compute in (mm <=? 2) in
           change ((153 * mp + 2) / 5) with c;
           rewrite civil_from_march_based;
           [ | lia | lia | intros Hdoy; Z.div_mod_to_equations; lia ];
           cbv zeta;
           match goal with
           | |- context [(5 * ?doy + 2) / 153] =>
               replace ((5 * doy + 2) / 153) with k by (Z.div_mod_to_equations; lia)
           end;
           change ((153 * k + 2) / 5) with c;
           change (if k <? 10 then k + 3 else k - 9) with mm;
           change (mm <=? 2) with b;
           cbv iota
       end.
  all: f_equal; [f_equal|]; lia.
Qed.

Lemma ten_years_in_days (y m d : Z) :
  3651 <= Date.days_from_civil y m d - Date.days_from_civil (y - 10) m d <= 3653.
Proof.
  unfold Date.days_from_civil.
  destruct (m <=? 2); cbv zeta; Z.div_mod_to_equations; lia.
Qed.


(** ** Outcomes of a run *)

(** X5.  On a real current date and a strategy selector holding one of its
    options, the script completes when today is at least 3650 days after
    date.min; on an earlier day it stops with OverflowError at the default
    start date, having emitted nothing but the page configuration. *)
Theorem script_completes_or_overflows (upper : string -> string) (w : St.World) :
  Date.in_range (St.today w) = true ->
  (St.state_or (St.select_state (St.session w) "選擇回測策略") 0 < 3)%nat ->
  (Date.date_min + 3650 <= St.today w ->
     exists g log, St.run (App.app upper) w = (Ok g, log)) /\
  (St.today w < Date.date_min + 3650 ->
     St.run (App.app upper) w =
       (Raise OverflowError,
        [(St.Page, St.PageConfig "美股綜合分析系統 (Streamlit UI 範例)" "wide" "expanded")])).
Proof.
  intros Htoday Hidx.
  destruct (St.run (App.app upper) w) as [r log] eqn:H.
  unfold Date.in_range in Htoday. bool_hyps.
  eval_run H; subst r log.
  all: unfold Date.in_range in Hclock.
  all: try (apply andb_true_iff in Hclock; destruct Hclock as [Hlo Hhi];
            apply Z.leb_le in Hlo, Hhi).
  all: try (apply andb_false_iff in Hclock;
            destruct Hclock as [Hc|Hc]; apply Z.leb_gt in Hc).
  all: try rewrite Hsel in Hidx; cbn [St.state_or] in Hidx.
  all: split; [intros Hge|intros Hlt]; try lia.
  all: try (eexists; eexists; reflexivity).
  all: try reflexivity.
Qed.

(** ** What a run reads *)

Ltac split_agreement H :=
  repeat (apply Forall_cons_iff in H;
          let E := fresh "E" in destruct H as [E H]; cbn [St.agree snd] in E);
  clear H.

Ltac use_agreement s' H :=
  repeat match goal with
         | E : _ = ?f s' ?l |- _ => rewrite <- E in H; clear E
         end.

Ltac use_agreement_goal s' :=
  repeat match goal with
         | E : _ = ?f s' ?l |- _ => rewrite <- E; clear E
         end.

Ltac eval_rest H :=
  try split_clock H; cbn in H;
  try split_strategy H; cbn in H;
  try split_button H; cbn in H;
  try name_chart H; cbn in H;
  let Hres := fresh "Hres" in
  let Hlog := fresh "Hlog" in
  apply pair_eq in H; destruct H as [Hres Hlog].

(** X6.  A run reads only the widgets it displays: a session that holds the
    same state for every widget in a completed run's log gives the same
    variables and the same log, whatever it holds for other widgets (such as
    the sliders of the strategies that are not selected). *)
Theorem run_reads_only_displayed_widgets (upper : string -> string)
    (today : Date.date) (s s' : St.Session) (g : App.Globals) (log : St.Log) :
  St.run (App.app upper) (St.mkWorld today s) = (Ok g, log) ->
  Forall (fun ce => St.agree s s' (snd ce)) log ->
  St.run (App.app upper) (St.mkWorld today s') = (Ok g, log).
Proof.
  intros H Hagree.
  destruct (St.run (App.app upper) (St.mkWorld today s')) as [r' log'] eqn:H'.
  eval_run H; subst g log.
  all: split_agreement Hagree.
  all: unfold_script H'; cbn [St.today St.session] in H'.
  all: use_agreement s' H'.
  all: eval_rest H'; subst r' log'.
  all: use_agreement_goal s'.
  all: reflexivity.
Qed.

(** ** Messages and widgets *)

(** X7.  A completed run shows the request-sent message exactly when the
    button is pressed: the page's success messages are that one message if
    the button is pressed and none otherwise, and they are all in the
    sidebar. *)
Theorem success_message_iff_pressed (upper : string -> string) (w : St.World)
    (g : App.Globals) (log : St.Log) :
  St.run (App.app upper) w = (Ok g, log) ->
  St.successes (map snd log) =
    (if St.button_state (St.session w) "🚀 執行策略回測"
     then ["回測請求已送出..."] else []) /\
  St.successes (St.elements St.Sidebar log) = St.successes (map snd log).
Proof.
  intros H.
  eval_run H; subst g log; split; reflexivity.
Qed.

Ltac distinct_widgets :=
  repeat first
    [ apply NoDup_nil
    | apply NoDup_cons;
      [ cbn [In]; intros Hin;
        repeat match goal with
               | Hor : _ \/ _ |- _ => destruct Hor as [Hor|Hor]
               end;
        first [ discriminate | contradiction ]
      | ] ].

(** X8.  No run emits two widgets of the same kind with the same label. *)
Theorem widgets_are_distinct (upper : string -> string) (w : St.World) :
  NoDup (St.widgets (map snd (snd (St.run (App.app upper) w)))).
Proof.
  destruct (St.run (App.app upper) w) as [r log] eqn:H.
  cbn [snd].
  eval_run H; subst log; cbn [map snd St.widgets St.widget].
  all: distinct_widgets.
Qed.


(** X10.  With both date inputs untouched the end date is today and the
    start date is 3650 days earlier, which is not ten calendar years: when
    today is the civil date y-m-d, the start date is one to three days after
    the day y-10, m, d. *)
Theorem default_start_is_3650_days_before_today (upper : string -> string)
    (w : St.World) (g : App.Globals) (log : St.Log) (y m d : Z) :
  St.run (App.app upper) w = (Ok g, log) ->
  St.date_state (St.session w) "起始日期" = None ->
  St.date_state (St.session w) "結束日期" = None ->
  St.today w = Date.days_from_civil y m d ->
  1 <= m <= 12 ->
  1 <= d <= Date.days_in_month y m ->
  App.end_date g = St.today w /\
  App.end_date g - App.start_date g = 3650 /\
  Date.civil_from_days (App.end_date g) = (y, m, d) /\
  1 <= App.start_date g - Date.days_from_civil (y - 10) m d <= 3.
Proof.
  intros H Hd1 Hd2 Htoday Hm Hd.
  pose proof (ten_years_in_days y m d) as Hten.
  pose proof (civil_round_trip y m d Hm Hd) as Hcivil.
  eval_run H; subst g log; cbn [App.start_date App.end_date];
    rewrite Hd1, Hd2; cbn [St.state_or].
  all: split; [reflexivity|].
  all: split; [lia|].
  all: split; [now rewrite Htoday | lia].
Qed.

(** X11.  With no slider touched a completed run holds a valid
    configuration: every widget value is selectable and the parameters are
    the defaults, 20 and 60 for GoldenCross, 20 for Breakout, 30 and 70 for
    MultiFactor. *)
Theorem untouched_sliders_give_valid_defaults (upper : string -> string)
    (w : St.World) (g : App.Globals) (log : St.Log) :
  St.run (App.app upper) w = (Ok g, log) ->
  (forall label, St.slider_state (St.session w) label = None) ->
  St.all_selectable log = true /\
  ((App.selected_strategy_key g = "GoldenCross" /\ App.params g = App.GoldenCross 20 60) \/
   (App.selected_strategy_key g = "Breakout" /\ App.params g = App.Breakout 20) \/
   (App.selected_strategy_key g = "MultiFactor" /\ App.params g = App.MultiFactor 30 70)).
Proof.
  intros H Hs.
  eval_run H; subst g log; rewrite ?Hs; cbn [St.state_or].
  all: split; [reflexivity|].
  1-2, 7-8: (left; split; reflexivity).
  1-2: (right; left; split; reflexivity).
  all: (right; right; split; reflexivity).
Qed.

(** X12.  Every Breakout configuration of a completed run on selectable
    values has its period within 5..100, belongs to the key Breakout, and is
    the period the sidebar's parameter line reports. *)
Theorem breakout_period_in_range (upper : string -> string) (w : St.World)
    (g : App.Globals) (log : St.Log) (period : Z) :
  St.run (App.app upper) w = (Ok g, log) ->
  St.all_selectable log = true ->
  App.params g = App.Breakout period ->
  5 <= period <= 100 /\
  App.selected_strategy_key g = "Breakout" /\
  In (St.Sidebar, St.Info ("策略參數: " ++ str_int period ++ " 日突破")) log.
Proof.
  intros H Hok Hp.
  eval_run H; subst g log; cbn in Hp; try discriminate.
  all: cbn in Hok; bool_hyps.
  all: apply (f_equal (fun p => match p with App.Breakout x => x | _ => 0 end)) in Hp.
  all: cbn beta iota in Hp; subst period.
  all: split; [lia|]; split; [reflexivity | find_in].
Qed.

(** ** The further properties at concrete runs *)

Lemma chart_columns_aligned_witness :
  exists fig trace,
    App.get_dummy_candlestick_chart "AAPL" = Ok fig /\
    In trace (Go.data fig) /\
    List.length (Go.x trace) = 100%nat /\
    List.length (Go.close trace) = 100%nat.
Proof.
  eexists. eexists.
  split; [reflexivity|].
  split; [left; reflexivity|].
  pose proof (chart_columns_aligned "AAPL" _ _ 0 eq_refl (or_introl eq_refl))
    as (_ & Hx & _ & _ & _ & Hc & _).
  split; [exact Hx | exact Hc].
Defined.

Lemma chart_dates_daily_witness :
  exists fig trace,
    App.get_dummy_candlestick_chart "AAPL" = Ok fig /\
    In trace (Go.data fig) /\
    nth_error (Go.x trace) 98 = Some 1744156800000000000 /\
    (forall d', nth_error (Go.x trace) 99 = Some d' ->
       d' - 1744156800000000000 = Date.ns_per_day).
Proof.
  eexists. eexists.
  split; [reflexivity|].
  split; [left; reflexivity|].
  split; [reflexivity|].
  exact (proj2 (proj2 (proj2
    (chart_dates_daily "AAPL" _ _ 98 1744156800000000000
       eq_refl (or_introl eq_refl) eq_refl)))).
Defined.

Lemma chart_prices_bounded_and_periodic_witness :
  exists fig trace,
    App.get_dummy_candlestick_chart "AAPL" = Ok fig /\
    In trace (Go.data fig) /\
    nth_error (Go.open trace) 17 = Some 107 /\
    nth_error (Go.open trace) (17 + 10) = Some 107 /\
    nth_error (Go.close trace) (17 + 10) = Some 109.
Proof.
  eexists. eexists.
  split; [reflexivity|].
  split; [left; reflexivity|].
  split; [reflexivity|].
  pose proof (chart_prices_bounded_and_periodic "AAPL" _ _ 17 107 112 102 109
                eq_refl (or_introl eq_refl) eq_refl eq_refl eq_refl eq_refl)
    as (_ & _ & _ & _ & Hnext).
  destruct (Hnext ltac:(lia)) as (Ho & _ & _ & Hc).
  split; [exact Ho | exact Hc].
Defined.

Lemma chart_depends_on_ticker_only_in_title_witness :
  exists f1 f2,
    App.get_dummy_candlestick_chart "AAPL" = Ok f1 /\
    App.get_dummy_candlestick_chart "MSFT" = Ok f2 /\
    Go.data f1 = Go.data f2 /\
    (Go.title (Go.layout f1) = Go.title (Go.layout f2) <-> "AAPL" = "MSFT").
Proof.
  eexists. eexists.
  split; [reflexivity|].
  split; [reflexivity|].
  pose proof (chart_depends_on_ticker_only_in_title "AAPL" "MSFT" _ _ eq_refl eq_refl)
    as (Hdata & _ & _ & _ & _ & Htitle).
  split; [exact Hdata | exact Htitle].
Defined.

Lemma script_completes_or_overflows_witness :
  (exists g log, St.run (App.app ascii_upper) Runs.default = (Ok g, log)) /\
  St.run (App.app ascii_upper) (St.mkWorld (Date.date_min + 3649) St.untouched) =
    (Raise OverflowError,
     [(St.Page, St.PageConfig "美股綜合分析系統 (Streamlit UI 範例)" "wide" "expanded")]).
Proof.
  split.
  - apply (script_completes_or_overflows ascii_upper Runs.default);
      [reflexivity | cbn; lia | vm_compute; discriminate].
  - apply (script_completes_or_overflows ascii_upper
             (St.mkWorld (Date.date_min + 3649) St.untouched));
      [reflexivity | cbn; lia | vm_compute; reflexivity].
Defined.

Lemma run_reads_only_displayed_widgets_witness :
  exists g log,
    St.run (App.app ascii_upper)
      (St.mkWorld Runs.clock (St.choose "選擇回測策略" 1 St.untouched)) = (Ok g, log) /\
    St.run (App.app ascii_upper)
      (St.mkWorld Runs.clock
         (St.slide "短期均線 (Fast MA)" 33
            (St.choose "選擇回測策略" 1 St.untouched))) = (Ok g, log).
Proof.
  eexists. eexists.
  split; [vm_compute; reflexivity|].
  eapply (run_reads_only_displayed_widgets ascii_upper Runs.clock
            (St.choose "選擇回測策略" 1 St.untouched)).
  - vm_compute. reflexivity.
  - repeat (apply Forall_cons; [cbn; first [exact I | reflexivity]|]).
    apply Forall_nil.
Defined.

Lemma success_message_iff_pressed_witness :
  exists g log,
    St.run (App.app ascii_upper) Runs.overlap = (Ok g, log) /\
    St.successes (map snd log) = ["回測請求已送出..."].
Proof.
  eexists. eexists.
  split; [vm_compute; reflexivity|].
  exact (proj1 (success_message_iff_pressed ascii_upper Runs.overlap _ _ eq_refl)).
Defined.


Lemma default_start_is_3650_days_before_today_witness :
  exists g log,
    St.run (App.app ascii_upper) Runs.default = (Ok g, log) /\
    App.end_date g - App.start_date g = 3650 /\
    1 <= App.start_date g - Date.days_from_civil (2026 - 10) 11 3 <= 3.
Proof.
  eexists. eexists.
  split; [vm_compute; reflexivity|].
  pose proof (default_start_is_3650_days_before_today ascii_upper Runs.default
                _ _ 2026 11 3 eq_refl eq_refl eq_refl eq_refl)
    as Hthm.
  destruct Hthm as (_ & Hspan & _ & Hten); [lia | cbn; lia |].
  split; [exact Hspan | exact Hten].
Defined.

Lemma untouched_sliders_give_valid_defaults_witness :
  exists g log,
    St.run (App.app ascii_upper) Runs.default = (Ok g, log) /\
    St.all_selectable log = true.
Proof.
  eexists. eexists.
  split; [vm_compute; reflexivity|].
  exact (proj1 (untouched_sliders_give_valid_defaults ascii_upper Runs.default
                  _ _ eq_refl (fun _ => eq_refl))).
Defined.

Lemma breakout_period_in_range_witness :
  exists g log,
    St.run (App.app ascii_upper)
      (St.mkWorld Runs.clock
         (St.slide "突破週期 (Period)" 100
            (St.choose "選擇回測策略" 1 St.untouched))) = (Ok g, log) /\
    5 <= 100 <= 100 /\
    In (St.Sidebar, St.Info "策略參數: 100 日突破") log.
Proof.
  eexists. eexists.
  split; [vm_compute; reflexivity|].
  pose proof (breakout_period_in_range ascii_upper
                (St.mkWorld Runs.clock
                   (St.slide "突破週期 (Period)" 100
                      (St.choose "選擇回測策略" 1 St.untouched)))
                _ _ 100 eq_refl eq_refl eq_refl)
    as (Hr & _ & Hin).
  split; [exact Hr | exact Hin].
Defined.

(** ** Page configuration *)

(** X13.  Every run, completed or not, configures the page first and once:
    the log starts with the page configuration and holds no other page-level
    entry. *)
Theorem page_config_is_first_and_only (upper : string -> string) (w : St.World) :
  exists rest,
    snd (St.run (App.app upper) w) =
      (St.Page, St.PageConfig "美股綜合分析系統 (Streamlit UI 範例)" "wide" "expanded")
        :: rest /\
    St.elements St.Page rest = [].
Proof.
  destruct (St.run (App.app upper) w) as [r log] eqn:H.
  cbn [snd].
  eval_run H; subst log; eexists; split; reflexivity.
Qed.
